(** * The blog views: listing, detail and creation of posts

    A shallow embedding of [blog/views.py].  The three view functions
    [post_list], [post_detail] and [post_create] run against the table of
    posts; each is a computation in a small monad that threads the table
    and may raise an exception, exactly as the Python code does through
    the object-relational mapper. *)

From Stdlib Require Import List ZArith String Bool Lia Permutation Sorted.
Import ListNotations.
Local Open Scope string_scope.
Local Open Scope Z_scope.
Local Open Scope list_scope.

(** ** Data *)

(** Submitted key/value pairs ([request.POST], [request.GET]). *)
Definition QueryDict := list (string * string).

(** Field name mapped to its list of error messages ([form.errors]). *)
Definition ErrorDict := list (string * list string).

(** The validated field values of a post ([form.cleaned_data]). *)
Definition Fields := list (string * string).

(** A row of the post table: primary key, creation time, and the
    fields filled in from the form. *)
Record BlogPost := mkBlogPost
  { pk : Z;
    created_at : Z;
    fields : Fields }.

(** The post table, rows in insertion order. *)
Definition Store := list BlogPost.

(** The part of the request object a view can look at. *)
Record HttpRequest := mkHttpRequest
  { method : string;
    path : string;
    GET : QueryDict;
    POST : QueryDict }.

(** A form object.  [errors] is [None] until the form has been
    validated; [is_valid] fills it in, as well as [cleaned_data]. *)
Record BlogPostForm := mkBlogPostForm
  { is_bound : bool;
    data : QueryDict;
    errors : option ErrorDict;
    cleaned_data : option Fields }.

(** The values a view puts in a template context. *)
Inductive ContextValue :=
| Posts (posts : list BlogPost)
| Post (post : BlogPost)
| Form (form : BlogPostForm).

Definition Context := list (string * ContextValue).

Inductive HttpResponse :=
| TemplateResponse (request : HttpRequest) (template : string) (context : Context)
| HttpResponseRedirect (viewname : string) (to_pk : Z)
| HttpResponseNotFound
| HttpResponseServerError.

(** Exceptions that the calls made by the views can raise. *)
Inductive Exn :=
| DoesNotExist
| MultipleObjectsReturned
| Http404
| ValueError.

Inductive Result (A : Type) :=
| Ok (a : A)
| Raise (e : Exn).
Arguments Ok {A} a.
Arguments Raise {A} e.

(** ** The view monad: read the clock, thread the table, maybe raise *)

Definition View (A : Type) := Z -> Store -> Result A * Store.

Definition ret {A} (a : A) : View A := fun _ s => (Ok a, s).

Definition raise {A} (e : Exn) : View A := fun _ s => (Raise e, s).

Definition bind {A B} (m : View A) (k : A -> View B) : View B :=
  fun now s =>
    match m now s with
    | (Ok a, s') => k a now s'
    | (Raise e, s') => (Raise e, s')
    end.

(** [try m except e: h] *)
Definition catch {A} (m : View A) (e : Exn -> bool) (h : View A) : View A :=
  fun now s =>
    match m now s with
    | (Raise x, s') => if e x then h now s' else (Raise x, s')
    | r => r
    end.

Notation "x <- m ;; k" := (bind m (fun x => k))
  (at level 61, m at next level, right associativity).

(** ** The object-relational mapper, as far as the views use it *)

(** Insert [p] in a list that is already newest first.  Among posts
    with the same creation time the earlier row stays first. *)
Fixpoint insert_desc (p : BlogPost) (l : list BlogPost) : list BlogPost :=
  match l with
  | [] => [p]
  | q :: l' =>
      if created_at q <=? created_at p then p :: q :: l'
      else q :: insert_desc p l'
  end.

(** [BlogPost.objects.order_by("-created_at")]: every row, sorted on
    the creation time, descending. *)
Definition order_by_created_at_desc (s : Store) : list BlogPost :=
  fold_right insert_desc [] s.

Definition objects_order_by_created_at_desc : View (list BlogPost) :=
  fun _ s => (Ok (order_by_created_at_desc s), s).

(** [BlogPost.objects.get(pk=k)]: the one row with that key. *)
Definition objects_get (k : Z) : View BlogPost :=
  fun _ s =>
    match filter (fun p => pk p =? k) s with
    | [] => (Raise DoesNotExist, s)
    | [p] => (Ok p, s)
    | _ :: _ :: _ => (Raise MultipleObjectsReturned, s)
    end.

Definition is_DoesNotExist (e : Exn) : bool :=
  match e with DoesNotExist => true | _ => false end.

(** [get_object_or_404(BlogPost, pk=k)] *)
Definition get_object_or_404 (k : Z) : View BlogPost :=
  catch (objects_get k) is_DoesNotExist (raise Http404).

(** Modelled from the spec: the model declaration ([blog/models.py]) and
    the database that hands out primary keys are not part of the sources.
    The spec says a post has "an identifier (unique, assigned at
    creation)"; the key given to a new row is one more than the largest
    key in the table (1 in an empty table). *)
Definition fresh_pk (s : Store) : Z :=
  Z.succ (fold_right Z.max 0 (map pk s)).

(** Modelled from the spec: [blog/models.py] is not part of the sources.
    The spec says a post has "a creation timestamp"; a new row gets the
    time of the clock at the moment it is inserted. *)
Definition objects_create (cd : Fields) : View BlogPost :=
  fun now s =>
    let post := mkBlogPost (fresh_pk s) now cd in
    (Ok post, s ++ [post]).

(** ** The form *)

Section Views.

(** The field validation that [blog/forms.py] declares (not part of the
    sources): from the submitted data, either the field errors or the
    cleaned field values. *)
Variable validate : QueryDict -> ErrorDict + Fields.

(** [BlogPostForm(data)] and [BlogPostForm()] *)
Definition new_BlogPostForm (d : option QueryDict) : BlogPostForm :=
  match d with
  | Some qd => mkBlogPostForm true qd None None
  | None => mkBlogPostForm false [] None None
  end.

(** [form.is_valid()]: the answer, and the form as the call leaves it. *)
Definition is_valid (form : BlogPostForm) : bool * BlogPostForm :=
  if is_bound form then
    match validate (data form) with
    | inl errs =>
        (false, mkBlogPostForm true (data form) (Some errs) None)
    | inr cd =>
        (true, mkBlogPostForm true (data form) (Some []) (Some cd))
    end
  else (false, form).

(** [form.save()]: a form that did not validate cannot be saved. *)
Definition save (form : BlogPostForm) : View BlogPost :=
  match cleaned_data form with
  | Some cd => objects_create cd
  | None => raise ValueError
  end.

(** ** Shortcuts *)

Definition render (request : HttpRequest) (template : string)
    (context : Context) : HttpResponse :=
  TemplateResponse request template context.

Definition redirect (viewname : string) (k : Z) : HttpResponse :=
  HttpResponseRedirect viewname k.

(** ** The views *)

Definition post_list (request : HttpRequest) : View HttpResponse :=
  posts <- objects_order_by_created_at_desc ;;
  ret (render request "blog/index.html" [("posts", Posts posts)]).

Definition post_detail (request : HttpRequest) (k : Z) : View HttpResponse :=
  post <- get_object_or_404 k ;;
  ret (render request "blog/detail.html" [("post", Post post)]).

Definition post_create (request : HttpRequest) : View HttpResponse :=
  let render_form form :=
    ret (render request "blog/create.html" [("form", Form form)]) in
  if String.eqb (method request) "POST" then
    let form := new_BlogPostForm (Some (POST request)) in
    let '(valid, form) := is_valid form in
    if valid then
      post <- save form ;;
      ret (redirect "blog:post_detail" (pk post))
    else render_form form
  else
    let form := new_BlogPostForm None in
    render_form form.

(** ** The framework around a view *)

(** What the framework answers when a view returns or raises. *)
Definition get_response (view : View HttpResponse) (now : Z) (s : Store)
    : HttpResponse * Store :=
  match view now s with
  | (Ok r, s') => (r, s')
  | (Raise Http404, s') => (HttpResponseNotFound, s')
  | (Raise _, s') => (HttpResponseServerError, s')
  end.

(** A request routed to one of the three views. *)
Inductive Call :=
| CallList (request : HttpRequest)
| CallDetail (request : HttpRequest) (k : Z)
| CallCreate (request : HttpRequest).

Definition handle (now : Z) (c : Call) (s : Store) : HttpResponse * Store :=
  match c with
  | CallList request => get_response (post_list request) now s
  | CallDetail request k => get_response (post_detail request k) now s
  | CallCreate request => get_response (post_create request) now s
  end.

(** A sequence of requests, each with the time at which it is served. *)
Fixpoint run (calls : list (Z * Call)) (s : Store) : Store :=
  match calls with
  | [] => s
  | (now, c) :: rest => run rest (snd (handle now c s))
  end.

End Views.

(** ** Properties of the table *)

(** No two rows share a primary key. *)
Definition pk_unique (s : Store) : Prop := NoDup (map pk s).

Definition newest_first (l : list BlogPost) : Prop :=
  StronglySorted (fun p q => created_at q <= created_at p) l.

Definition is_error (r : HttpResponse) : bool :=
  match r with
  | HttpResponseNotFound | HttpResponseServerError => true
  | _ => false
  end.

(** Two rows that agree except, possibly, on a creation time that one
    got from the clock at [now1] and the other from the clock at [now2]. *)
Definition same_but_clock (now1 now2 : Z) (p q : BlogPost) : Prop :=
  pk p = pk q /\ fields p = fields q /\
  (created_at p = created_at q \/
   (created_at p = now1 /\ created_at q = now2)).

(** ** Sample data *)

(** A form with one required field, [title]. *)
Definition validate_title (d : QueryDict) : ErrorDict + Fields :=
  match find (fun kv => String.eqb (fst kv) "title") d with
  | Some (_, EmptyString) | None =>
      inl [("title", ["This field is required."%string])]
  | Some (_, v) => inr [("title", v)]
  end.

Definition sample_store : Store :=
  [ mkBlogPost 1 100 [("title", "first"%string)];
    mkBlogPost 2 300 [("title", "second"%string)];
    mkBlogPost 5 200 [("title", "third"%string)] ].

Definition sample_get : HttpRequest :=
  mkHttpRequest "GET" "/blog/" [] [].

Definition sample_head : HttpRequest :=
  mkHttpRequest "HEAD" "/blog/new/" [] [].

Definition sample_post_valid : HttpRequest :=
  mkHttpRequest "POST" "/blog/new/" [] [("title", "hello"%string)].

Definition sample_post_invalid : HttpRequest :=
  mkHttpRequest "POST" "/blog/new/" [] [("title", ""%string)].

(** ** What a sequence of requests is expected to save *)

Definition is_redirect (r : HttpResponse) : bool :=
  match r with
  | HttpResponseRedirect _ _ => true
  | _ => false
  end.

(** The cleaned field values of the requests of a sequence that are
    POST requests to the create view with data that validates, in the
    order of the requests. *)
Fixpoint saved_fields (validate : QueryDict -> ErrorDict + Fields)
    (calls : list (Z * Call)) : list Fields :=
  match calls with
  | [] => []
  | (_, CallCreate request) :: rest =>
      if String.eqb (method request) "POST" then
        match validate (POST request) with
        | inr cd => cd :: saved_fields validate rest
        | inl _ => saved_fields validate rest
        end
      else saved_fields validate rest
  | _ :: rest => saved_fields validate rest
  end.

(** ** The query layer *)

Lemma insert_desc_perm (p : BlogPost) (l : list BlogPost) :
  Permutation (insert_desc p l) (p :: l).
Proof.
  induction l as [|q l IH]; simpl.
  - apply Permutation_refl.
  - destruct (created_at q <=? created_at p).
    + apply Permutation_refl.
    + eapply perm_trans; [apply perm_skip, IH | apply perm_swap].
Qed.

Lemma order_by_perm (s : Store) :
  Permutation (order_by_created_at_desc s) s.
Proof.
  induction s as [|p s IH]; simpl.
  - constructor.
  - eapply perm_trans; [apply insert_desc_perm | now apply perm_skip].
Qed.

Lemma insert_desc_sorted (p : BlogPost) (l : list BlogPost) :
  newest_first l -> newest_first (insert_desc p l).
Proof.
  unfold newest_first.
  induction l as [|q l IH]; simpl; intros Hs.
  - repeat constructor.
  - apply StronglySorted_inv in Hs as [Hl Hq].
    destruct (created_at q <=? created_at p) eqn:E.
    + apply Z.leb_le in E.
      constructor; [now constructor|].
      constructor; [exact E|].
      eapply Forall_impl; [|exact Hq]. simpl; intros; lia.
    + apply Z.leb_gt in E.
      constructor; [now apply IH|].
      eapply Permutation_Forall;
        [apply Permutation_sym, insert_desc_perm|].
      constructor; [lia | exact Hq].
Qed.

Lemma order_by_sorted (s : Store) :
  newest_first (order_by_created_at_desc s).
Proof.
  induction s as [|p s IH]; simpl.
  - constructor.
  - now apply insert_desc_sorted.
Qed.

Lemma fresh_pk_above (s : Store) (p : BlogPost) :
  In p s -> pk p < fresh_pk s.
Proof.
  unfold fresh_pk.
  induction s as [|q s IH]; simpl; [tauto|].
  intros [->|Hin]; [lia|].
  specialize (IH Hin). lia.
Qed.

Lemma fresh_pk_not_in (s : Store) : ~ In (fresh_pk s) (map pk s).
Proof.
  intros Hin. apply in_map_iff in Hin as (p & Hp & Hin).
  apply fresh_pk_above in Hin. lia.
Qed.

Lemma filter_pk_none (k : Z) (s : Store) :
  (forall p, In p s -> pk p <> k) ->
  filter (fun p => pk p =? k) s = [].
Proof.
  induction s as [|q s IH]; simpl; intros H; [reflexivity|].
  destruct (pk q =? k) eqn:E.
  - apply Z.eqb_eq in E. exfalso. now apply (H q); [left|].
  - apply IH. intros p Hp. apply H. now right.
Qed.

Lemma filter_pk_unique (p : BlogPost) (s : Store) :
  pk_unique s -> In p s ->
  filter (fun q => pk q =? pk p) s = [p].
Proof.
  unfold pk_unique.
  induction s as [|q s IH]; simpl; intros Hu Hin; [tauto|].
  inversion Hu as [|? ? Hq Hs]; subst.
  destruct Hin as [->|Hin].
  - rewrite Z.eqb_refl. f_equal.
    apply filter_pk_none. intros r Hr E.
    apply Hq. rewrite <- E. now apply in_map.
  - destruct (pk q =? pk p) eqn:E.
    + apply Z.eqb_eq in E. exfalso. apply Hq.
      rewrite E. now apply in_map.
    + now apply IH.
Qed.

Lemma pk_unique_snoc (s : Store) (p : BlogPost) :
  pk_unique s -> ~ In (pk p) (map pk s) -> pk_unique (s ++ [p]).
Proof.
  unfold pk_unique. intros Hu Hp.
  rewrite map_app. simpl.
  apply NoDup_app; [exact Hu | repeat constructor; simpl; tauto |].
  intros k Hk [<-|[]]. contradiction.
Qed.

Lemma pk_unique_resolves (s : Store) (p q : BlogPost) :
  pk_unique s -> In p s -> In q s -> pk p = pk q -> p = q.
Proof.
  intros Hu Hp Hq E.
  pose proof (filter_pk_unique p s Hu Hp) as Fp.
  pose proof (filter_pk_unique q s Hu Hq) as Fq.
  rewrite E in Fp. congruence.
Qed.

(** ** The three views *)

Section Properties.

Variable validate : QueryDict -> ErrorDict + Fields.

(** The three paths through [post_create]. *)

Lemma post_create_get (request : HttpRequest) (now : Z) (s : Store) :
  method request <> "POST"%string ->
  post_create validate request now s =
    (Ok (render request "blog/create.html"
           [("form"%string, Form (new_BlogPostForm None))]), s).
Proof.
  intros Hm. unfold post_create.
  apply String.eqb_neq in Hm. now rewrite Hm.
Qed.

Lemma post_create_saved (request : HttpRequest) (now : Z) (s : Store)
    (cd : Fields) :
  method request = "POST"%string ->
  validate (POST request) = inr cd ->
  post_create validate request now s =
    (Ok (redirect "blog:post_detail" (fresh_pk s)),
     s ++ [mkBlogPost (fresh_pk s) now cd]).
Proof.
  intros Hm Hv. unfold post_create, is_valid.
  apply String.eqb_eq in Hm. rewrite Hm. simpl. now rewrite Hv.
Qed.

Lemma post_create_rejected (request : HttpRequest) (now : Z) (s : Store)
    (errs : ErrorDict) :
  method request = "POST"%string ->
  validate (POST request) = inl errs ->
  post_create validate request now s =
    (Ok (render request "blog/create.html"
           [("form"%string,
             Form (mkBlogPostForm true (POST request) (Some errs) None))]),
     s).
Proof.
  intros Hm Hv. unfold post_create, is_valid.
  apply String.eqb_eq in Hm. rewrite Hm. simpl. now rewrite Hv.
Qed.

Lemma is_valid_true (request : HttpRequest) :
  fst (is_valid validate (new_BlogPostForm (Some (POST request)))) = true ->
  exists cd, validate (POST request) = inr cd.
Proof.
  unfold is_valid. simpl.
  destruct (validate (POST request)) as [errs|cd]; simpl; [discriminate|].
  now exists cd.
Qed.

Lemma is_valid_false (request : HttpRequest) :
  fst (is_valid validate (new_BlogPostForm (Some (POST request)))) = false ->
  exists errs, validate (POST request) = inl errs.
Proof.
  unfold is_valid. simpl.
  destruct (validate (POST request)) as [errs|cd]; simpl; [|discriminate].
  now exists errs.
Qed.

(** Whatever the request, [post_create] leaves the table alone or adds
    one row under a key that was not in use. *)
Lemma post_create_store (request : HttpRequest) (now : Z) (s : Store) :
  (exists form,
     post_create validate request now s =
       (Ok (render request "blog/create.html"
              [("form"%string, Form form)]), s)) \/
  (exists cd,
     post_create validate request now s =
       (Ok (redirect "blog:post_detail" (fresh_pk s)),
        s ++ [mkBlogPost (fresh_pk s) now cd])).
Proof.
  destruct (String.eqb_spec (method request) "POST") as [Hm|Hm].
  - destruct (validate (POST request)) as [errs|cd] eqn:Hv.
    + left. eexists. now apply post_create_rejected with (errs := errs).
    + right. exists cd. now apply post_create_saved.
  - left. eexists. now apply post_create_get.
Qed.

Lemma post_list_run (request : HttpRequest) (now : Z) (s : Store) :
  post_list request now s =
    (Ok (render request "blog/index.html"
           [("posts"%string, Posts (order_by_created_at_desc s))]), s).
Proof. reflexivity. Qed.

Lemma post_detail_run (request : HttpRequest) (k : Z) (now : Z) (s : Store) :
  post_detail request k now s =
    match filter (fun p => pk p =? k) s with
    | [] => (Raise Http404, s)
    | [p] => (Ok (render request "blog/detail.html"
                    [("post"%string, Post p)]), s)
    | _ :: _ :: _ => (Raise MultipleObjectsReturned, s)
    end.
Proof.
  unfold post_detail, get_object_or_404, catch, bind, objects_get.
  destruct (filter _ s) as [|p [|q l]]; reflexivity.
Qed.

(** A request adds rows at the end of the table and touches nothing
    else. *)
Lemma handle_extends (now : Z) (c : Call) (s : Store) :
  exists new, snd (handle validate now c s) = s ++ new.
Proof.
  destruct c as [request|request k|request]; unfold handle, get_response.
  - exists []. rewrite post_list_run. simpl. now rewrite app_nil_r.
  - exists []. rewrite post_detail_run, app_nil_r.
    destruct (filter _ s) as [|p [|q l]]; reflexivity.
  - destruct (post_create_store request now s) as [[form E]|[cd E]];
      rewrite E; simpl.
    + exists []. now rewrite app_nil_r.
    + now eexists.
Qed.

Lemma handle_pk_unique (now : Z) (c : Call) (s : Store) :
  pk_unique s -> pk_unique (snd (handle validate now c s)).
Proof.
  intros Hu.
  destruct c as [request|request k|request]; unfold handle, get_response.
  - now rewrite post_list_run.
  - rewrite post_detail_run.
    destruct (filter _ s) as [|p [|q l]]; exact Hu.
  - destruct (post_create_store request now s) as [[form E]|[cd E]];
      rewrite E; simpl; [exact Hu|].
    apply pk_unique_snoc; [exact Hu | apply fresh_pk_not_in].
Qed.

Lemma run_pk_unique (calls : list (Z * Call)) (s : Store) :
  pk_unique s -> pk_unique (run validate calls s).
Proof.
  revert s. induction calls as [|[now c] rest IH]; simpl; intros s Hu.
  - exact Hu.
  - now apply IH, handle_pk_unique.
Qed.

Lemma run_extends (calls : list (Z * Call)) (s : Store) :
  exists new, run validate calls s = s ++ new.
Proof.
  revert s. induction calls as [|[now c] rest IH]; simpl; intros s.
  - exists []. now rewrite app_nil_r.
  - destruct (handle_extends now c s) as [n1 E1].
    destruct (IH (snd (handle validate now c s))) as [n2 E2].
    exists (n1 ++ n2). now rewrite E2, E1, app_assoc.
Qed.

(** ** The specification, claim by claim *)

(** C1: a POST request to the create view whose data passes the form
    validation adds exactly one row to the table, and the answer is a
    redirect to the detail page of that very row: the key in the
    redirect is the key of the saved post. *)
Theorem post_create_valid_persists_and_redirects
    (request : HttpRequest) (now : Z) (s : Store)
    (Hmethod : method request = "POST"%string)
    (Hvalid :
       fst (is_valid validate (new_BlogPostForm (Some (POST request))))
       = true) :
  exists post,
    post_create validate request now s =
      (Ok (redirect "blog:post_detail" (pk post)), s ++ [post]) /\
    handle validate now (CallCreate request) s =
      (HttpResponseRedirect "blog:post_detail" (pk post), s ++ [post]) /\
    List.length (s ++ [post]) = S (List.length s) /\
    ~ In (pk post) (map pk s) /\
    created_at post = now /\
    validate (POST request) = inr (fields post).
Proof.
  destruct (is_valid_true request Hvalid) as [cd Hcd].
  exists (mkBlogPost (fresh_pk s) now cd).
  pose proof (post_create_saved request now s cd Hmethod Hcd) as E.
  simpl. repeat split.
  - exact E.
  - unfold handle, get_response. now rewrite E.
  - rewrite length_app. simpl. lia.
  - apply fresh_pk_not_in.
  - exact Hcd.
Qed.

(** C2: whatever the table holds, the listing view renders all of its
    rows, none left out and none added, newest first. *)
Theorem post_list_all_posts_newest_first
    (request : HttpRequest) (now : Z) (s : Store) :
  exists posts,
    post_list request now s =
      (Ok (render request "blog/index.html" [("posts"%string, Posts posts)]),
       s) /\
    handle validate now (CallList request) s =
      (TemplateResponse request "blog/index.html"
         [("posts"%string, Posts posts)], s) /\
    Permutation posts s /\
    List.length posts = List.length s /\
    newest_first posts.
Proof.
  exists (order_by_created_at_desc s).
  pose proof (order_by_perm s) as Hp.
  repeat split.
  - exact Hp.
  - now apply Permutation_length.
  - apply order_by_sorted.
Qed.

(** C3: for a key that no row has, the detail view raises [Http404],
    which the framework answers with its not-found response; and on a
    table with unique keys this is the only way any of the three views
    ends in an error response. *)
Theorem post_detail_not_found_only_error
    (request : HttpRequest) (k : Z) (now : Z) (s : Store)
    (Hnone : forall p, In p s -> pk p <> k) :
  post_detail request k now s = (Raise Http404, s) /\
  handle validate now (CallDetail request k) s = (HttpResponseNotFound, s) /\
  (forall now' c s',
     pk_unique s' ->
     is_error (fst (handle validate now' c s')) = true ->
     fst (handle validate now' c s') = HttpResponseNotFound /\
     exists request' k',
       c = CallDetail request' k' /\ forall p, In p s' -> pk p <> k').
Proof.
  assert (E : post_detail request k now s = (Raise Http404, s)).
  { rewrite post_detail_run. now rewrite filter_pk_none. }
  split; [exact E|]. split.
  { unfold handle, get_response. now rewrite E. }
  intros now' c s' Hu.
  destruct c as [request'|request' k'|request']; unfold handle, get_response.
  - rewrite post_list_run. discriminate.
  - rewrite post_detail_run.
    destruct (filter (fun p => pk p =? k') s') as [|p [|q l]] eqn:F; simpl.
    + intros _. split; [reflexivity|].
      exists request', k'. split; [reflexivity|].
      intros p Hp Hk.
      assert (Hin : In p (filter (fun p => pk p =? k') s')).
      { apply filter_In. split; [exact Hp | now apply Z.eqb_eq]. }
      rewrite F in Hin. destruct Hin.
    + discriminate.
    + intros _. exfalso.
      assert (Hp : In p (filter (fun p => pk p =? k') s'))
        by (rewrite F; now left).
      assert (Hq : In q (filter (fun p => pk p =? k') s'))
        by (rewrite F; right; now left).
      apply filter_In in Hp as [Hp Ep]. apply filter_In in Hq as [Hq Eq].
      apply Z.eqb_eq in Ep, Eq.
      pose proof (filter_pk_unique p s' Hu Hp) as Fp.
      rewrite Ep, F in Fp. discriminate.
  - destruct (post_create_store request' now' s')
      as [[form E']|[cd E']]; rewrite E'; discriminate.
Qed.

(** C4: a POST request to the create view whose data fails the form
    validation leaves the table as it was, and the answer renders the
    create page again with the same bound form, which now carries the
    errors the validation found. *)
Theorem post_create_invalid_rerenders_form
    (request : HttpRequest) (now : Z) (s : Store)
    (Hmethod : method request = "POST"%string)
    (Hinvalid :
       fst (is_valid validate (new_BlogPostForm (Some (POST request))))
       = false) :
  exists errs,
    validate (POST request) = inl errs /\
    snd (is_valid validate (new_BlogPostForm (Some (POST request)))) =
      mkBlogPostForm true (POST request) (Some errs) None /\
    post_create validate request now s =
      (Ok (render request "blog/create.html"
             [("form"%string,
               Form (mkBlogPostForm true (POST request) (Some errs) None))]),
       s) /\
    handle validate now (CallCreate request) s =
      (TemplateResponse request "blog/create.html"
         [("form"%string,
           Form (mkBlogPostForm true (POST request) (Some errs) None))],
       s).
Proof.
  destruct (is_valid_false request Hinvalid) as [errs Herrs].
  exists errs.
  pose proof (post_create_rejected request now s errs Hmethod Herrs) as E.
  repeat split.
  - exact Herrs.
  - unfold is_valid. simpl. now rewrite Herrs.
  - exact E.
  - unfold handle, get_response. now rewrite E.
Qed.

(** C5: on a table with unique keys, the detail view asked for the key
    of a row of the table renders the detail page with exactly that
    row. *)
Theorem post_detail_renders_that_post
    (request : HttpRequest) (now : Z) (s : Store) (p : BlogPost)
    (Hunique : pk_unique s) (Hin : In p s) :
  post_detail request (pk p) now s =
    (Ok (render request "blog/detail.html" [("post"%string, Post p)]), s) /\
  handle validate now (CallDetail request (pk p)) s =
    (TemplateResponse request "blog/detail.html" [("post"%string, Post p)],
     s).
Proof.
  assert (E : post_detail request (pk p) now s =
    (Ok (render request "blog/detail.html" [("post"%string, Post p)]), s)).
  { rewrite post_detail_run. now rewrite filter_pk_unique. }
  split; [exact E|].
  unfold handle, get_response. now rewrite E.
Qed.

(** C6: the same valid POST request served twice in a row adds two rows
    with the same field values under two different keys; the second
    request changes the table again, so creation is not idempotent. *)
Theorem post_create_twice_two_posts
    (request : HttpRequest) (now1 now2 : Z) (s : Store)
    (Hmethod : method request = "POST"%string)
    (Hvalid :
       fst (is_valid validate (new_BlogPostForm (Some (POST request))))
       = true) :
  exists p1 p2,
    handle validate now1 (CallCreate request) s =
      (HttpResponseRedirect "blog:post_detail" (pk p1), s ++ [p1]) /\
    handle validate now2 (CallCreate request) (s ++ [p1]) =
      (HttpResponseRedirect "blog:post_detail" (pk p2), s ++ [p1; p2]) /\
    run validate [(now1, CallCreate request); (now2, CallCreate request)] s =
      s ++ [p1; p2] /\
    pk p1 <> pk p2 /\
    fields p1 = fields p2 /\
    ~ In (pk p1) (map pk s) /\
    ~ In (pk p2) (map pk s) /\
    s ++ [p1; p2] <> s ++ [p1].
Proof.
  destruct (is_valid_true request Hvalid) as [cd Hcd].
  set (p1 := mkBlogPost (fresh_pk s) now1 cd).
  set (p2 := mkBlogPost (fresh_pk (s ++ [p1])) now2 cd).
  exists p1, p2.
  assert (E1 : handle validate now1 (CallCreate request) s =
    (HttpResponseRedirect "blog:post_detail" (pk p1), s ++ [p1])).
  { unfold handle, get_response.
    now rewrite (post_create_saved request now1 s cd Hmethod Hcd). }
  assert (E2 : handle validate now2 (CallCreate request) (s ++ [p1]) =
    (HttpResponseRedirect "blog:post_detail" (pk p2), s ++ [p1; p2])).
  { unfold handle, get_response.
    rewrite (post_create_saved request now2 (s ++ [p1]) cd Hmethod Hcd).
    now rewrite <- app_assoc. }
  assert (Hlt : pk p1 < pk p2).
  { apply fresh_pk_above, in_or_app. right. now left. }
  repeat split.
  - exact E1.
  - exact E2.
  - cbn [run]. rewrite E1. cbn [snd]. now rewrite E2.
  - lia.
  - apply fresh_pk_not_in.
  - intros Hin. apply in_map_iff in Hin as (q & Eq & Hq).
    assert (pk q < pk p2)
      by (apply fresh_pk_above, in_or_app; now left).
    lia.
  - intros E. apply (f_equal (@List.length BlogPost)) in E.
    rewrite !length_app in E. simpl in E. lia.
Qed.

(** C7: the listing and the detail view hand back the table they were
    given; and after any one request, and after any sequence of
    requests, the table is the old table followed by the new rows, so
    that every row that was there is still there, unchanged. *)
Theorem views_keep_existing_posts
    (now : Z) (request : HttpRequest) (k : Z) (c : Call)
    (calls : list (Z * Call)) (s : Store) :
  snd (handle validate now (CallList request) s) = s /\
  snd (handle validate now (CallDetail request k) s) = s /\
  (exists new, snd (handle validate now c s) = s ++ new) /\
  (exists new, run validate calls s = s ++ new).
Proof.
  repeat split.
  - unfold handle, get_response. rewrite post_detail_run.
    destruct (filter _ s) as [|p [|q l]]; reflexivity.
  - apply handle_extends.
  - apply run_extends.
Qed.

(** C8: starting from a table with unique keys, every table that a
    sequence of requests leads to has unique keys, so that a key picks
    at most one row; and a request to the create view in such a table
    either adds nothing or adds one row whose key no row had. *)
Theorem pk_unique_invariant
    (calls : list (Z * Call)) (now : Z) (request : HttpRequest) (s : Store)
    (Hinit : pk_unique s) :
  pk_unique (run validate calls s) /\
  (forall p q,
     In p (run validate calls s) -> In q (run validate calls s) ->
     pk p = pk q -> p = q) /\
  (snd (handle validate now (CallCreate request) (run validate calls s)) =
     run validate calls s \/
   exists post,
     handle validate now (CallCreate request) (run validate calls s) =
       (HttpResponseRedirect "blog:post_detail" (pk post),
        run validate calls s ++ [post]) /\
     ~ In (pk post) (map pk (run validate calls s))).
Proof.
  pose proof (run_pk_unique calls s Hinit) as Hu.
  set (s' := run validate calls s) in *.
  split; [exact Hu|]. split.
  - intros p q. now apply pk_unique_resolves.
  - unfold handle, get_response.
    destruct (post_create_store request now s') as [[form E]|[cd E]];
      rewrite E; simpl.
    + now left.
    + right. exists (mkBlogPost (fresh_pk s') now cd).
      split; [reflexivity|]. apply fresh_pk_not_in.
Qed.

(** C9: a request to the create view whose method is anything but POST
    gets the create page with a fresh unbound form (no data, not
    validated), and the table is left as it was. *)
Theorem post_create_display_unbound_form
    (request : HttpRequest) (now : Z) (s : Store)
    (Hmethod : method request <> "POST"%string) :
  post_create validate request now s =
    (Ok (render request "blog/create.html"
           [("form"%string, Form (new_BlogPostForm None))]), s) /\
  handle validate now (CallCreate request) s =
    (TemplateResponse request "blog/create.html"
       [("form"%string, Form (new_BlogPostForm None))], s) /\
  new_BlogPostForm None = mkBlogPostForm false [] None None.
Proof.
  pose proof (post_create_get request now s Hmethod) as E.
  repeat split; [exact E|].
  unfold handle, get_response. now rewrite E.
Qed.

(** C10: the answer of a view depends on the request and the table
    only: served at two different times, the same request on the same
    table gets the same response, and the two resulting tables agree
    row by row on keys and fields, and on creation times too except for
    a row stamped by the clock during the request. *)
Theorem handle_depends_on_request_and_store
    (c : Call) (s : Store) (now1 now2 : Z) :
  fst (handle validate now1 c s) = fst (handle validate now2 c s) /\
  Forall2 (same_but_clock now1 now2)
    (snd (handle validate now1 c s)) (snd (handle validate now2 c s)).
Proof.
  assert (Hrefl : forall l, Forall2 (same_but_clock now1 now2) l l).
  { induction l; constructor; [|assumption].
    unfold same_but_clock. auto. }
  destruct c as [request|request k|request]; unfold handle, get_response.
  - rewrite !post_list_run. simpl. auto.
  - rewrite !post_detail_run.
    destruct (filter _ s) as [|p [|q l]]; simpl; auto.
  - destruct (String.eqb_spec (method request) "POST") as [Hm|Hm].
    + destruct (validate (POST request)) as [errs|cd] eqn:Hv.
      * rewrite !(post_create_rejected request _ s errs Hm Hv). simpl. auto.
      * rewrite !(post_create_saved request _ s cd Hm Hv). simpl.
        split; [reflexivity|].
        apply Forall2_app; [apply Hrefl|].
        constructor; [|constructor].
        unfold same_but_clock. simpl. auto.
    + rewrite !(post_create_get request _ s Hm). simpl. auto.
Qed.

End Properties.

(** ** The views at work on the sample data *)

Example sample_listing :
  map pk (order_by_created_at_desc sample_store) = [2; 5; 1].
Proof. reflexivity. Qed.

Example sample_fresh_pk : fresh_pk sample_store = 6.
Proof. reflexivity. Qed.

Example sample_create_then_detail :
  let s := snd (handle validate_title 400 (CallCreate sample_post_valid)
                  sample_store) in
  handle validate_title 401 (CallDetail sample_get 6) s =
    (TemplateResponse sample_get "blog/detail.html"
       [("post"%string, Post (mkBlogPost 6 400 [("title", "hello"%string)]))],
     s).
Proof. reflexivity. Qed.

Lemma sample_store_pk_unique : pk_unique sample_store.
Proof.
  unfold pk_unique, sample_store. simpl.
  repeat constructor; simpl; intros H;
    repeat (destruct H as [H|H]; [discriminate H|]); exact H.
Defined.

Lemma post_create_valid_persists_and_redirects_witness :
  method sample_post_valid = "POST"%string /\
  fst (is_valid validate_title
         (new_BlogPostForm (Some (POST sample_post_valid)))) = true /\
  exists post,
    handle validate_title 400 (CallCreate sample_post_valid) sample_store =
      (HttpResponseRedirect "blog:post_detail" (pk post),
       sample_store ++ [post]) /\
    ~ In (pk post) (map pk sample_store).
Proof.
  split; [reflexivity|]. split; [reflexivity|].
  destruct (post_create_valid_persists_and_redirects validate_title
              sample_post_valid 400 sample_store eq_refl eq_refl)
    as (post & _ & Hh & _ & Hfresh & _).
  exists post. split; [exact Hh | exact Hfresh].
Defined.

Lemma post_detail_not_found_only_error_witness :
  (forall p, In p sample_store -> pk p <> 7) /\
  handle validate_title 400 (CallDetail sample_get 7) sample_store =
    (HttpResponseNotFound, sample_store).
Proof.
  assert (Hnone : forall p, In p sample_store -> pk p <> 7).
  { intros p [<-|[<-|[<-|[]]]]; discriminate. }
  split; [exact Hnone|].
  exact (proj1 (proj2 (post_detail_not_found_only_error validate_title
                         sample_get 7 400 sample_store Hnone))).
Defined.

Lemma post_create_invalid_rerenders_form_witness :
  method sample_post_invalid = "POST"%string /\
  fst (is_valid validate_title
         (new_BlogPostForm (Some (POST sample_post_invalid)))) = false /\
  exists errs,
    handle validate_title 400 (CallCreate sample_post_invalid) sample_store =
      (TemplateResponse sample_post_invalid "blog/create.html"
         [("form"%string,
           Form (mkBlogPostForm true (POST sample_post_invalid)
                   (Some errs) None))],
       sample_store).
Proof.
  split; [reflexivity|]. split; [reflexivity|].
  destruct (post_create_invalid_rerenders_form validate_title
              sample_post_invalid 400 sample_store eq_refl eq_refl)
    as (errs & _ & _ & _ & Hh).
  exists errs. exact Hh.
Defined.

Lemma post_detail_renders_that_post_witness :
  pk_unique sample_store /\
  In (mkBlogPost 5 200 [("title", "third"%string)]) sample_store /\
  handle validate_title 400 (CallDetail sample_get 5) sample_store =
    (TemplateResponse sample_get "blog/detail.html"
       [("post"%string, Post (mkBlogPost 5 200 [("title", "third"%string)]))],
     sample_store).
Proof.
  assert (Hin : In (mkBlogPost 5 200 [("title", "third"%string)])
                  sample_store).
  { right. right. left. reflexivity. }
  split; [exact sample_store_pk_unique|]. split; [exact Hin|].
  exact (proj2 (post_detail_renders_that_post validate_title sample_get 400
                  sample_store _ sample_store_pk_unique Hin)).
Defined.

Lemma post_create_twice_two_posts_witness :
  method sample_post_valid = "POST"%string /\
  fst (is_valid validate_title
         (new_BlogPostForm (Some (POST sample_post_valid)))) = true /\
  exists p1 p2,
    run validate_title
      [(400, CallCreate sample_post_valid);
       (401, CallCreate sample_post_valid)] sample_store =
      sample_store ++ [p1; p2] /\
    pk p1 <> pk p2 /\ fields p1 = fields p2.
Proof.
  split; [reflexivity|]. split; [reflexivity|].
  destruct (post_create_twice_two_posts validate_title sample_post_valid
              400 401 sample_store eq_refl eq_refl)
    as (p1 & p2 & _ & _ & Hrun & Hpk & Hfields & _).
  exists p1, p2. auto.
Defined.

Lemma pk_unique_invariant_witness :
  pk_unique sample_store /\
  pk_unique
    (run validate_title
       [(400, CallCreate sample_post_valid);
        (401, CallList sample_get);
        (402, CallCreate sample_post_invalid);
        (403, CallCreate sample_post_valid)] sample_store).
Proof.
  split; [exact sample_store_pk_unique|].
  exact (proj1 (pk_unique_invariant validate_title _ 404 sample_post_valid
                  sample_store sample_store_pk_unique)).
Defined.

Lemma post_create_display_unbound_form_witness :
  method sample_head <> "POST"%string /\
  handle validate_title 400 (CallCreate sample_head) sample_store =
    (TemplateResponse sample_head "blog/create.html"
       [("form"%string, Form (new_BlogPostForm None))], sample_store).
Proof.
  assert (Hm : method sample_head <> "POST"%string) by discriminate.
  split; [exact Hm|].
  exact (proj1 (proj2 (post_create_display_unbound_form validate_title
                         sample_head 400 sample_store Hm))).
Defined.

(** ** More on the query layer *)

(** A row newer than every row of the table, added at the end of the
    table, comes first in the listing. *)
Lemma order_by_snoc_newest (s : Store) (p : BlogPost) :
  (forall q, In q s -> created_at q < created_at p) ->
  order_by_created_at_desc (s ++ [p]) = p :: order_by_created_at_desc s.
Proof.
  unfold order_by_created_at_desc.
  induction s as [|q s IH]; simpl; intros Hnew; [reflexivity|].
  rewrite IH by (intros r Hr; apply Hnew; now right).
  simpl.
  assert (Hq : created_at q < created_at p) by (apply Hnew; now left).
  destruct (created_at p <=? created_at q) eqn:E; [|reflexivity].
  apply Z.leb_le in E. lia.
Qed.

(** Two rows with different creation times can be inserted in either
    order. *)
Lemma insert_desc_comm (a b : BlogPost) (l : list BlogPost) :
  created_at a <> created_at b ->
  insert_desc a (insert_desc b l) = insert_desc b (insert_desc a l).
Proof.
  intros Hab.
  induction l as [|q l IH]; simpl.
  - destruct (created_at b <=? created_at a) eqn:E1,
             (created_at a <=? created_at b) eqn:E2; try reflexivity.
    + apply Z.leb_le in E1, E2. lia.
    + apply Z.leb_gt in E1, E2. lia.
  - destruct (created_at q <=? created_at a) eqn:Ea,
             (created_at q <=? created_at b) eqn:Eb; simpl;
      rewrite ?Ea, ?Eb.
    + destruct (created_at b <=? created_at a) eqn:E1,
               (created_at a <=? created_at b) eqn:E2; try reflexivity.
      * apply Z.leb_le in E1, E2. lia.
      * apply Z.leb_gt in E1, E2. lia.
    + destruct (created_at a <=? created_at b) eqn:E2; [|reflexivity].
      apply Z.leb_le in E2, Ea. apply Z.leb_gt in Eb. lia.
    + destruct (created_at b <=? created_at a) eqn:E1; [|reflexivity].
      apply Z.leb_le in E1, Eb. apply Z.leb_gt in Ea. lia.
    + now rewrite IH.
Qed.

Lemma order_by_perm_invariant (s1 s2 : Store) :
  Permutation s1 s2 ->
  NoDup (map created_at s1) ->
  order_by_created_at_desc s1 = order_by_created_at_desc s2.
Proof.
  unfold order_by_created_at_desc.
  induction 1 as [|p l1 l2 Hp IH|p q l|l1 l2 l3 H12 IH12 H23 IH23];
    simpl; intros Hnd.
  - reflexivity.
  - inversion Hnd; subst. now rewrite IH.
  - inversion Hnd as [|? ? Hq Hrest]; subst.
    apply insert_desc_comm. intros E. apply Hq. left. now symmetry.
  - rewrite IH12 by exact Hnd. apply IH23.
    eapply Permutation_NoDup; [|exact Hnd].
    now apply Permutation_map.
Qed.

(** ** The views, one request after another *)

Section Compositions.

Variable validate : QueryDict -> ErrorDict + Fields.

Lemma handle_detail_found (request : HttpRequest) (now : Z) (s : Store)
    (p : BlogPost) :
  pk_unique s -> In p s ->
  handle validate now (CallDetail request (pk p)) s =
    (TemplateResponse request "blog/detail.html" [("post"%string, Post p)],
     s).
Proof.
  intros Hu Hin. unfold handle, get_response.
  rewrite post_detail_run. now rewrite filter_pk_unique.
Qed.

Lemma handle_detail_missing (request : HttpRequest) (now : Z) (s : Store)
    (k : Z) :
  ~ In k (map pk s) ->
  handle validate now (CallDetail request k) s = (HttpResponseNotFound, s).
Proof.
  intros Hk. unfold handle, get_response.
  rewrite post_detail_run. rewrite filter_pk_none; [reflexivity|].
  intros p Hp E. apply Hk. rewrite <- E. now apply in_map.
Qed.

Lemma handle_create_saved (request : HttpRequest) (now : Z) (s : Store)
    (cd : Fields) :
  method request = "POST"%string ->
  validate (POST request) = inr cd ->
  handle validate now (CallCreate request) s =
    (HttpResponseRedirect "blog:post_detail" (fresh_pk s),
     s ++ [mkBlogPost (fresh_pk s) now cd]).
Proof.
  intros Hm Hv. unfold handle, get_response.
  now rewrite (post_create_saved validate request now s cd Hm Hv).
Qed.

(** X1: the redirect of a successful creation leads to the new post: the
    key in the redirect was not found by the detail view before the
    request, and after it the detail view renders the row just saved. *)
Theorem create_then_detail_shows_new_post
    (request request' : HttpRequest) (now now' : Z) (s : Store)
    (Hmethod : method request = "POST"%string)
    (Hvalid :
       fst (is_valid validate (new_BlogPostForm (Some (POST request))))
       = true)
    (Hunique : pk_unique s) :
  exists post,
    handle validate now (CallCreate request) s =
      (HttpResponseRedirect "blog:post_detail" (pk post), s ++ [post]) /\
    handle validate now' (CallDetail request' (pk post)) s =
      (HttpResponseNotFound, s) /\
    handle validate now' (CallDetail request' (pk post)) (s ++ [post]) =
      (TemplateResponse request' "blog/detail.html"
         [("post"%string, Post post)], s ++ [post]) /\
    validate (POST request) = inr (fields post).
Proof.
  destruct (is_valid_true validate request Hvalid) as [cd Hcd].
  exists (mkBlogPost (fresh_pk s) now cd).
  split; [now apply handle_create_saved|].
  split; [apply handle_detail_missing, fresh_pk_not_in|].
  split; [|exact Hcd].
  apply handle_detail_found.
  - apply pk_unique_snoc; [exact Hunique | apply fresh_pk_not_in].
  - apply in_or_app. right. now left.
Qed.

(** X2: the create view never raises and never answers with an error;
    it answers with a redirect exactly when it has added a row, and
    otherwise it renders the create page and the table is as before. *)
Theorem post_create_redirects_iff_saved
    (request : HttpRequest) (now : Z) (s : Store) :
  exists r s',
    post_create validate request now s = (Ok r, s') /\
    is_error r = false /\
    ((is_redirect r = true /\
      exists post, s' = s ++ [post] /\
        r = HttpResponseRedirect "blog:post_detail" (pk post)) \/
     (is_redirect r = false /\ s' = s /\
      exists form,
        r = TemplateResponse request "blog/create.html"
              [("form"%string, Form form)])).
Proof.
  destruct (post_create_store validate request now s)
    as [[form E]|[cd E]]; rewrite E.
  - eexists _, _. split; [reflexivity|]. split; [reflexivity|].
    right. split; [reflexivity|]. split; [reflexivity|]. now exists form.
  - eexists _, _. split; [reflexivity|]. split; [reflexivity|].
    left. split; [reflexivity|].
    exists (mkBlogPost (fresh_pk s) now cd). now split.
Qed.

(** X3: once a post is in a table with unique keys, its detail page
    stays the same whatever requests are served afterwards. *)
Theorem post_detail_stable_under_requests
    (request : HttpRequest) (now : Z) (calls : list (Z * Call))
    (s : Store) (p : BlogPost)
    (Hunique : pk_unique s) (Hin : In p s) :
  handle validate now (CallDetail request (pk p)) (run validate calls s) =
    (TemplateResponse request "blog/detail.html" [("post"%string, Post p)],
     run validate calls s).
Proof.
  apply handle_detail_found.
  - now apply run_pk_unique.
  - destruct (run_extends validate calls s) as [new E].
    rewrite E. apply in_or_app. now left.
Qed.

(** X4: a post created at a time later than the creation time of every
    row of the table heads the listing that follows, and the rest of
    the listing is the listing of before. *)
Theorem create_then_list_shows_new_post_first
    (request request' : HttpRequest) (now now' : Z) (s : Store)
    (Hmethod : method request = "POST"%string)
    (Hvalid :
       fst (is_valid validate (new_BlogPostForm (Some (POST request))))
       = true)
    (Hlater : forall q, In q s -> created_at q < now) :
  exists post,
    handle validate now (CallCreate request) s =
      (HttpResponseRedirect "blog:post_detail" (pk post), s ++ [post]) /\
    handle validate now' (CallList request') (s ++ [post]) =
      (TemplateResponse request' "blog/index.html"
         [("posts"%string, Posts (post :: order_by_created_at_desc s))],
       s ++ [post]).
Proof.
  destruct (is_valid_true validate request Hvalid) as [cd Hcd].
  exists (mkBlogPost (fresh_pk s) now cd).
  split; [now apply handle_create_saved|].
  unfold handle, get_response. rewrite post_list_run. simpl.
  now rewrite order_by_snoc_newest.
Qed.

(** X5: after a sequence of requests the table is the old table
    followed by one row for each POST request to the create view whose
    data validated, in the order of the requests and with the cleaned
    data of each as fields; no other request adds a row. *)
Theorem run_appends_saved_fields (calls : list (Z * Call)) (s : Store) :
  exists new,
    run validate calls s = s ++ new /\
    map fields new = saved_fields validate calls.
Proof.
  revert s. induction calls as [|[now c] rest IH]; intros s.
  - exists []. split; [simpl; now rewrite app_nil_r | reflexivity].
  - cbn [run saved_fields].
    assert (Hsame : snd (handle validate now c s) = s ->
      exists new, run validate rest (snd (handle validate now c s)) = s ++ new
                  /\ map fields new = saved_fields validate rest).
    { intros ->. apply IH. }
    destruct c as [request|request k|request].
    + apply Hsame. unfold handle, get_response. now rewrite post_list_run.
    + apply Hsame. unfold handle, get_response. rewrite post_detail_run.
      destruct (filter _ s) as [|p [|q l]]; reflexivity.
    + destruct (String.eqb_spec (method request) "POST") as [Hm|Hm].
      * destruct (validate (POST request)) as [errs|cd] eqn:Hv.
        -- apply Hsame. unfold handle, get_response.
           now rewrite (post_create_rejected validate request now s errs).
        -- rewrite (handle_create_saved request now s cd Hm Hv). cbn [snd].
           destruct (IH (s ++ [mkBlogPost (fresh_pk s) now cd]))
             as [new [E1 E2]].
           exists (mkBlogPost (fresh_pk s) now cd :: new).
           split; [now rewrite E1, <- app_assoc|].
           simpl. now rewrite E2.
      * apply Hsame. unfold handle, get_response.
        now rewrite (post_create_get validate request now s Hm).
Qed.

(** X6: when no two rows have the same creation time, the listing
    depends on which rows the table holds, not on the order in which
    the table stores them. *)
Theorem post_list_ignores_row_order
    (request : HttpRequest) (now : Z) (s1 s2 : Store)
    (Hperm : Permutation s1 s2)
    (Hdistinct : NoDup (map created_at s1)) :
  fst (handle validate now (CallList request) s1) =
  fst (handle validate now (CallList request) s2).
Proof.
  unfold handle, get_response. rewrite !post_list_run. simpl.
  now rewrite (order_by_perm_invariant s1 s2 Hperm Hdistinct).
Qed.

(** X7: every post that the listing shows can be opened: on a table
    with unique keys, the detail view asked for the key of a listed post
    renders that post. *)
Theorem listed_post_has_detail_page
    (request request' : HttpRequest) (now now' : Z) (s : Store)
    (posts : list BlogPost) (p : BlogPost)
    (Hunique : pk_unique s)
    (Hlist :
       fst (handle validate now (CallList request) s) =
         TemplateResponse request "blog/index.html"
           [("posts"%string, Posts posts)])
    (Hshown : In p posts) :
  handle validate now' (CallDetail request' (pk p)) s =
    (TemplateResponse request' "blog/detail.html"
       [("post"%string, Post p)], s).
Proof.
  apply handle_detail_found; [exact Hunique|].
  unfold handle, get_response in Hlist. rewrite post_list_run in Hlist.
  simpl in Hlist. inversion Hlist; subst.
  eapply Permutation_in; [apply order_by_perm | exact Hshown].
Qed.

(** X8: no post ever leaves the listing: a post that the listing of a
    table shows is shown by the listing of every table that a sequence
    of requests leads to. *)
Theorem listed_post_stays_listed
    (request : HttpRequest) (now : Z) (calls : list (Z * Call))
    (s : Store) (posts : list BlogPost) (p : BlogPost)
    (Hlist :
       fst (handle validate now (CallList request) s) =
         TemplateResponse request "blog/index.html"
           [("posts"%string, Posts posts)])
    (Hshown : In p posts) :
  exists posts',
    fst (handle validate now (CallList request) (run validate calls s)) =
      TemplateResponse request "blog/index.html"
        [("posts"%string, Posts posts')] /\
    In p posts'.
Proof.
  exists (order_by_created_at_desc (run validate calls s)).
  split; [reflexivity|].
  unfold handle, get_response in Hlist. rewrite post_list_run in Hlist.
  simpl in Hlist. inversion Hlist; subst.
  eapply Permutation_in; [apply Permutation_sym, order_by_perm|].
  destruct (run_extends validate calls s) as [new E].
  rewrite E. apply in_or_app. left.
  eapply Permutation_in; [apply order_by_perm | exact Hshown].
Qed.

End Compositions.

(** ** The compositions on the sample data *)

Lemma sample_store_older_than_400 :
  forall q, In q sample_store -> created_at q < 400.
Proof.
  intros q [<-|[<-|[<-|[]]]]; simpl; lia.
Defined.

Lemma sample_store_created_at_distinct :
  NoDup (map created_at sample_store).
Proof.
  unfold sample_store. simpl.
  repeat constructor; simpl; intros H;
    repeat (destruct H as [H|H]; [discriminate H|]); exact H.
Defined.

Lemma create_then_detail_shows_new_post_witness :
  method sample_post_valid = "POST"%string /\
  fst (is_valid validate_title
         (new_BlogPostForm (Some (POST sample_post_valid)))) = true /\
  pk_unique sample_store /\
  exists post,
    handle validate_title 400 (CallCreate sample_post_valid) sample_store =
      (HttpResponseRedirect "blog:post_detail" (pk post),
       sample_store ++ [post]) /\
    handle validate_title 401 (CallDetail sample_get (pk post))
      (sample_store ++ [post]) =
      (TemplateResponse sample_get "blog/detail.html"
         [("post"%string, Post post)], sample_store ++ [post]).
Proof.
  split; [reflexivity|]. split; [reflexivity|].
  split; [exact sample_store_pk_unique|].
  destruct (create_then_detail_shows_new_post validate_title
              sample_post_valid sample_get 400 401 sample_store
              eq_refl eq_refl sample_store_pk_unique)
    as (post & Hc & _ & Hd & _).
  exists post. split; [exact Hc | exact Hd].
Defined.

Lemma post_detail_stable_under_requests_witness :
  pk_unique sample_store /\
  In (mkBlogPost 2 300 [("title", "second"%string)]) sample_store /\
  fst (handle validate_title 500 (CallDetail sample_get 2)
         (run validate_title
            [(400, CallCreate sample_post_valid);
             (401, CallCreate sample_post_invalid);
             (402, CallList sample_get)] sample_store)) =
    TemplateResponse sample_get "blog/detail.html"
      [("post"%string, Post (mkBlogPost 2 300 [("title", "second"%string)]))].
Proof.
  assert (Hin : In (mkBlogPost 2 300 [("title", "second"%string)])
                  sample_store).
  { right. left. reflexivity. }
  split; [exact sample_store_pk_unique|]. split; [exact Hin|].
  exact (f_equal fst
           (post_detail_stable_under_requests validate_title sample_get 500
              _ sample_store _ sample_store_pk_unique Hin)).
Defined.

Lemma create_then_list_shows_new_post_first_witness :
  method sample_post_valid = "POST"%string /\
  fst (is_valid validate_title
         (new_BlogPostForm (Some (POST sample_post_valid)))) = true /\
  (forall q, In q sample_store -> created_at q < 400) /\
  exists post,
    handle validate_title 401 (CallList sample_get)
      (sample_store ++ [post]) =
      (TemplateResponse sample_get "blog/index.html"
         [("posts"%string,
           Posts (post :: order_by_created_at_desc sample_store))],
       sample_store ++ [post]).
Proof.
  split; [reflexivity|]. split; [reflexivity|].
  split; [exact sample_store_older_than_400|].
  destruct (create_then_list_shows_new_post_first validate_title
              sample_post_valid sample_get 400 401 sample_store
              eq_refl eq_refl sample_store_older_than_400)
    as (post & _ & Hl).
  exists post. exact Hl.
Defined.

Lemma post_list_ignores_row_order_witness :
  Permutation sample_store (rev sample_store) /\
  NoDup (map created_at sample_store) /\
  fst (handle validate_title 400 (CallList sample_get) sample_store) =
  fst (handle validate_title 400 (CallList sample_get) (rev sample_store)).
Proof.
  split; [apply Permutation_rev|].
  split; [exact sample_store_created_at_distinct|].
  exact (post_list_ignores_row_order validate_title sample_get 400
           sample_store (rev sample_store) (Permutation_rev sample_store)
           sample_store_created_at_distinct).
Defined.

Lemma listed_post_has_detail_page_witness :
  pk_unique sample_store /\
  In (mkBlogPost 5 200 [("title", "third"%string)])
     (order_by_created_at_desc sample_store) /\
  handle validate_title 401 (CallDetail sample_get 5) sample_store =
    (TemplateResponse sample_get "blog/detail.html"
       [("post"%string, Post (mkBlogPost 5 200 [("title", "third"%string)]))],
     sample_store).
Proof.
  assert (Hin : In (mkBlogPost 5 200 [("title", "third"%string)])
                  (order_by_created_at_desc sample_store)).
  { right. left. reflexivity. }
  split; [exact sample_store_pk_unique|]. split; [exact Hin|].
  exact (listed_post_has_detail_page validate_title sample_get sample_get
           400 401 sample_store _ _ sample_store_pk_unique eq_refl Hin).
Defined.

Lemma listed_post_stays_listed_witness :
  In (mkBlogPost 1 100 [("title", "first"%string)])
     (order_by_created_at_desc sample_store) /\
  exists posts',
    fst (handle validate_title 400 (CallList sample_get)
           (run validate_title
              [(400, CallCreate sample_post_valid);
               (401, CallDetail sample_get 9)] sample_store)) =
      TemplateResponse sample_get "blog/index.html"
        [("posts"%string, Posts posts')] /\
    In (mkBlogPost 1 100 [("title", "first"%string)]) posts'.
Proof.
  assert (Hin : In (mkBlogPost 1 100 [("title", "first"%string)])
                  (order_by_created_at_desc sample_store)).
  { right. right. left. reflexivity. }
  split; [exact Hin|].
  exact (listed_post_stays_listed validate_title sample_get 400 _
           sample_store _ _ eq_refl Hin).
Defined.
